(** * allure-python-commons, [utils.py]: parameter snapshots of step calls

    A shallow embedding of [represent], [func_parameters] and
    [format_exception], and the properties of them that the specification
    states.

    Python values are a small inductive universe; a [dict] is a [gmap]; a
    call that may raise returns an [option], where [None] stands for a
    raised exception.  The builtins the module calls but does not define
    ([repr], [type], [str.decode], [sys.version_info],
    [format_exception_only]) are parameters: the fields of a [host], and
    an argument of [format_exception]. *)

From Stdlib Require Import Ascii String.
From stdpp Require Import gmap strings list fin_maps pretty.

Open Scope Z_scope.

#[local] Set Warnings "-register-all".

(** ** Values *)

(** The type of a value, as [type(item)] gives it: a builtin type by its
    name, or a class defined by a program by its qualified name. *)
Inductive pytype :=
| Builtin (name : string)
| UserClass (qualname : string).

(** [PText] is an object of the very type [six.text_type] ([unicode] on
    Python 2, [str] on Python 3).  [PTextSub cls t fmt] is an instance, of
    content [t], of a subclass [cls] of that type (a [str] enumeration, say),
    which [isinstance] accepts as text: [fmt] is what ['%s' % item] gives,
    by the [__str__] of the class, or [None] when that raises.
    [PBytes] is [bytes], which on Python 2 is the very type [str].
    [PInstance cls hook] is an instance of a class of the program that is
    neither text nor bytes, whose [__repr__] returns [hook], or raises when
    [hook] is [None]. *)
Inductive pyval :=
| PNone
| PBool (b : bool)
| PInt (z : Z)
| PText (t : string)
| PTextSub (cls : string) (t : string) (fmt : option string)
| PBytes (bs : string)
| PByteArray (bs : string)
| PTuple (xs : list pyval)
| PList (xs : list pyval)
| PType (ty : pytype)
| PInstance (cls : string) (hook : option string).

(** ** The host *)

Record host := Host {
  (** [sys.version_info.major] *)
  major : Z;
  (** [str.decode(encoding='UTF-8')] of Python 2; [None] is
      [UnicodeDecodeError] *)
  decode : string → option string;
  (** the builtin [repr]; [None] when it raises *)
  repr : pyval → option string
}.

(** [type(item)] *)
Definition type_of (h : host) (item : pyval) : pytype :=
  match item with
  | PNone => Builtin "NoneType"
  | PBool _ => Builtin "bool"
  | PInt _ => Builtin "int"
  | PText _ => Builtin (if major h <? 3 then "unicode" else "str")
  | PTextSub cls _ _ => UserClass cls
  | PBytes _ => Builtin (if major h <? 3 then "str" else "bytes")
  | PByteArray _ => Builtin "bytearray"
  | PTuple _ => Builtin "tuple"
  | PList _ => Builtin "list"
  | PType _ => Builtin "type"
  | PInstance cls _ => UserClass cls
  end.

(** [isinstance(item, str)] *)
Definition isinstance_str (h : host) (item : pyval) : bool :=
  match item with
  | PText _ | PTextSub _ _ _ => 3 <=? major h
  | PBytes _ => major h <? 3
  | _ => false
  end.

(** [isinstance(item, six.text_type)] *)
Definition isinstance_text (item : pyval) : bool :=
  match item with PText _ | PTextSub _ _ _ => true | _ => false end.

(** [isinstance(item, (bytes, bytearray))] *)
Definition isinstance_binary (item : pyval) : bool :=
  match item with PBytes _ | PByteArray _ => true | _ => false end.

(** ** [represent] *)

(** Lines 95 to 99: on Python 2 a [str] that is well-formed UTF-8 is
    replaced by its decoded text; one that is not is left as it is. *)
Definition decoded (h : host) (item : pyval) : pyval :=
  if (major h <? 3) && isinstance_str h item then
    match item with
    | PBytes bs =>
        match decode h bs with
        | Some t => PText t
        | None => item
        end
    | _ => item
    end
  else item.

(** [u'\'%s\'' % item], given the text that ['%s'] formats [item] to. *)
Definition quoted (t : string) : string := "'" +:+ t +:+ "'".

Definition represent (h : host) (item : pyval) : option string :=
  let item := decoded h item in
  match item with
  | PText t => Some (quoted t)
  | PTextSub _ _ fmt => t ← fmt; Some (quoted t)
  | PBytes _ | PByteArray _ => repr h (PType (type_of h item))
  | _ => repr h item
  end.

(** ** [func_parameters] *)

(** What [inspect.getargspec] / [inspect.getfullargspec] return, as far as
    the function reads it: [defaults] is [None] for a signature without
    defaults, and else the defaults of the last parameters of [args].  The
    parameters are names (the tuple parameters of Python 2, which
    [getargspec] gives as nested lists, are left out). *)
Record ArgSpec := {
  args : list string;
  varargs : option string;
  varkw : option string;
  defaults : option (list pyval)
}.

(** [dict(zip(keys, values))]: a later pair replaces an earlier one with
    the same key. *)
Definition insert_pair {V} (d : gmap string V) (kv : string * V) : gmap string V :=
  <[kv.1 := kv.2]> d.

Definition dict_zip {V} (keys : list string) (values : list V) : gmap string V :=
  foldl insert_pair ∅ (zip keys values).

(** [d.update(other)] *)
Definition update {V} (d other : gmap string V) : gmap string V := other ∪ d.

(** Truth value of a name that may be [None]. *)
Definition name_set (name : option string) : option string :=
  match name with
  | Some n => if decide (n = EmptyString) then None else Some n
  | None => None
  end.

(** Truth value of a tuple that may be [None]. *)
Definition tuple_set {A} (t : option (list A)) : option (list A) :=
  match t with
  | Some (x :: l) => Some (x :: l)
  | _ => None
  end.

(** The receiver test of line 254. *)
Definition receiver (spec : ArgSpec) : option string :=
  match args spec with
  | name :: _ => if bool_decide (name ∈ ["cls"; "self"]) then Some name else None
  | [] => None
  end.

(** Lines 242 to 258: the dict [parameters] before its values are
    rendered.  [argv] is the tuple bound to [*args], [kwargs] the dict bound
    to [**kwargs] (which, the first parameter being [func], never has the
    key [func]). *)
Definition parameters (spec : ArgSpec) (argv : list pyval)
    (kwargs : gmap string pyval) : gmap string pyval :=
  let parameters : gmap string pyval := ∅ in
  let args_dict := dict_zip (args spec) argv in
  let parameters :=
    match tuple_set (defaults spec) with
    | Some ds =>
        let kwargs_defaults_dict := dict_zip (drop (length argv) (args spec)) ds in
        update parameters kwargs_defaults_dict
    | None => parameters
    end in
  let parameters :=
    match name_set (varargs spec) with
    | Some name =>
        let varargs := drop (length (args spec)) argv in
        update parameters
          (match varargs with [] => ∅ | _ => {[name := PTuple varargs]} end)
    | None => parameters
    end in
  let args_dict :=
    match receiver spec with
    | Some name => delete name args_dict
    | None => args_dict
    end in
  let parameters := update parameters kwargs in
  update parameters args_dict.

(** Line 261: [lambda kv: (kv[0], represent(kv[1]))]. *)
Definition render_item (h : host) (kv : string * pyval) : option (string * string) :=
  v ← represent h kv.2; Some (kv.1, v).

(** Line 261: [dict(map(lambda kv: ..., items))]; the first value that does
    not render raises. *)
Definition render_items (h : host) (d : gmap string pyval) : option (gmap string string) :=
  items ← mapM (render_item h) (map_to_list d);
  Some (list_to_map items).

Definition func_parameters (h : host) (spec : ArgSpec) (argv : list pyval)
    (kwargs : gmap string pyval) : option (gmap string string) :=
  render_items h (parameters spec argv kwargs).

(** ** [format_exception] *)

Section FormatException.

(** Exception classes and exception instances. *)
Variables etype_t value_t : Type.

(** The truth value of an exception class and of an exception instance:
    true unless the class of the object defines [__bool__]
    ([__nonzero__] on Python 2) or [__len__] otherwise. *)
Variable etype_bool : etype_t → bool.
Variable value_bool : value_t → bool.

(** Modelled from the spec: [format_exception_only] (the function of
    [traceback] on Python 3, of the module [_compat], which is not among
    the sources, on Python 2) is a total renderer that returns the lines
    of the rendering. *)
Variable format_exception_only : option etype_t → option value_t → list string.

(** Truth value of an operand of [etype or value]: [None] is false, an
    object has the truth value of its class. *)
Definition truthy {A} (bool_of : A → bool) (o : option A) : bool :=
  match o with Some x => bool_of x | None => false end.

(** ['\n'.join(lines)] *)
Definition join (sep : string) (lines : list string) : string :=
  match lines with
  | [] => EmptyString
  | l :: ls => foldl (λ acc x, acc +:+ sep +:+ x) l ls
  end.

Definition format_exception (etype : option etype_t) (value : option value_t)
    : option string :=
  if truthy etype_bool etype || truthy value_bool value
  then Some (join (String "010" EmptyString) (format_exception_only etype value))
  else None.

End FormatException.

(** ** [md5] *)

Section Md5.

(** [arg.encode('utf-8')]; [None] when it raises: a value that has no
    [encode], a text that cannot be encoded. *)
Variable encode : pyval → option string.

(** [hexdigest()] of an MD5 object, as a function of the bytes that the
    object was fed. *)
Variable hexdigest : string → string.

(** The loop of lines 23 to 25.  The object [m] is given by the bytes it was
    fed so far: [m.update(part)] appends [part] to them. *)
Fixpoint md5_update (m : string) (args : list pyval) : option string :=
  match args with
  | [] => Some m
  | arg :: args => part ← encode arg; md5_update (m +:+ part) args
  end.

Definition md5 (args : list pyval) : option string :=
  m ← md5_update EmptyString args; Some (hexdigest m).

End Md5.

(** ** Two hosts

    [cpython3] and [cpython2] give the builtins as CPython 3 and CPython 2
    do on this universe of values, where text and byte strings have 8-bit
    characters, [PInt] is the type [int] (within the limit of digits that
    later versions of Python 3 put on its rendering), and no class of the
    program overrides the [__repr__] of text. *)

Definition hex_digit (n : N) : ascii :=
  default "0"%char (list_ascii_of_string "0123456789abcdef" !! N.to_nat n).

(** [\xHH] *)
Definition hex_escape (c : ascii) : string :=
  let n := N_of_ascii c in
  "\x" +:+ String (hex_digit (n `div` 16)) (String (hex_digit (n `mod` 16)) EmptyString).

Definition escape_char (printable : ascii → bool) (quote c : ascii) : string :=
  if bool_decide (c = quote) || bool_decide (c = "\"%char) then String "\" (String c EmptyString)
  else if bool_decide (c = "009"%char) then "\t"
  else if bool_decide (c = "010"%char) then "\n"
  else if bool_decide (c = "013"%char) then "\r"
  else if printable c then String c EmptyString
  else hex_escape c.

Definition contains (c : ascii) (s : string) : bool :=
  bool_decide (c ∈ list_ascii_of_string s).

(** The quote a literal is rendered with: the double quote when the
    content has a single quote and no double quote. *)
Definition quote_for (s : string) : ascii :=
  if contains "'" s && negb (contains "034" s) then "034"%char else "'"%char.

(** The literal of a text or a byte string. *)
Definition literal (printable : ascii → bool) (s : string) : string :=
  let q := quote_for s in
  String q (foldr (λ c acc, escape_char printable q c +:+ acc)
                  (String q EmptyString) (list_ascii_of_string s)).

Definition printable_ascii (c : ascii) : bool :=
  let n := N_of_ascii c in ((32 <=? n) && (n <? 127))%N.

(** The literal of a [bytearray], where the single quote is escaped
    whatever the quote is. *)
Definition bytearray_literal (s : string) : string :=
  let q := quote_for s in
  String q (foldr (λ c acc, escape_char printable_ascii "'" c +:+ acc)
                  (String q EmptyString) (list_ascii_of_string s)).

(** [str.isprintable] on the characters below U+0100. *)
Definition printable_latin1 (c : ascii) : bool :=
  let n := N_of_ascii c in
  printable_ascii c || ((161 <=? n) && negb (n =? 173))%N.

Definition repr_type (major : Z) (ty : pytype) : string :=
  match ty with
  | Builtin name => (if major <? 3 then "<type '" else "<class '") +:+ name +:+ "'>"
  | UserClass qualname => "<class '" +:+ qualname +:+ "'>"
  end.

Fixpoint repr_value (major : Z) (v : pyval) : option string :=
  match v with
  | PNone => Some "None"
  | PBool b => Some (if b then "True" else "False")
  | PInt z => Some (pretty z)
  | PText t | PTextSub _ t _ =>
      Some (if major <? 3 then "u" +:+ literal printable_ascii t
            else literal printable_latin1 t)
  | PBytes bs =>
      Some (if major <? 3 then literal printable_ascii bs
            else "b" +:+ literal printable_ascii bs)
  | PByteArray bs => Some ("bytearray(b" +:+ bytearray_literal bs +:+ ")")
  | PTuple xs =>
      items ← mapM (repr_value major) xs;
      Some (match items with
            | [x] => "(" +:+ x +:+ ",)"
            | _ => "(" +:+ join ", " items +:+ ")"
            end)
  | PList xs =>
      items ← mapM (repr_value major) xs;
      Some ("[" +:+ join ", " items +:+ "]")
  | PType ty => Some (repr_type major ty)
  | PInstance _ hook => hook
  end.

(** UTF-8 decoding of 7-bit data.  A byte from 0x80 up starts a sequence
    whose text is, but for U+0080 to U+00FF, outside the 8-bit text of this
    universe; [cpython2] is used on 7-bit data only and reports such a byte
    as undecodable. *)
Definition decode_ascii (bs : string) : option string :=
  if forallb (λ c, (N_of_ascii c <? 128)%N) (list_ascii_of_string bs)
  then Some bs else None.

Definition cpython3 : host :=
  {| major := 3; decode := decode_ascii; repr := repr_value 3 |}.

Definition cpython2 : host :=
  {| major := 2; decode := decode_ascii; repr := repr_value 2 |}.

(** Signatures of the doctests. *)
Definition signature (names : list string) (ds : list pyval)
    (va vk : option string) : ArgSpec :=
  {| args := names; varargs := va; varkw := vk;
     defaults := match ds with [] => None | _ => Some ds end |}.

Definition kw (l : list (string * pyval)) : gmap string pyval := list_to_map l.


(** ** The parts of [parameters]

    The three dicts that [func_parameters] merges with the keyword
    arguments, as functions of the signature and the call. *)

(** [args_dict] at line 258, after the receiver was popped. *)
Definition args_dict (spec : ArgSpec) (argv : list pyval) : gmap string pyval :=
  match receiver spec with
  | Some name => delete name (dict_zip (args spec) argv)
  | None => dict_zip (args spec) argv
  end.

(** What line 248 adds. *)
Definition defaults_dict (spec : ArgSpec) (argv : list pyval) : gmap string pyval :=
  match tuple_set (defaults spec) with
  | Some ds => dict_zip (drop (length argv) (args spec)) ds
  | None => ∅
  end.

(** What line 252 adds. *)
Definition varargs_dict (spec : ArgSpec) (argv : list pyval) : gmap string pyval :=
  match name_set (varargs spec) with
  | Some name =>
      match drop (length (args spec)) argv with
      | [] => ∅
      | surplus => {[name := PTuple surplus]}
      end
  | None => ∅
  end.

(** A signature as a [def] can declare it: no name twice. *)
Definition well_formed (spec : ArgSpec) : Prop :=
  NoDup (args spec) ∧ ∀ name, varargs spec = Some name → name ∉ args spec.

(** The signature of the same function declared without its first
    parameter, when that parameter has no default (the defaults are those
    of later parameters, and stay). *)
Definition without_first (spec : ArgSpec) : ArgSpec :=
  {| args := tail (args spec); varargs := varargs spec; varkw := varkw spec;
     defaults := defaults spec |}.

(** UTF-8 of a character below U+0100: itself below U+0080, two bytes
    from there on. *)
Definition utf8_char (c : ascii) : string :=
  let n := N_of_ascii c in
  if (n <? 128)%N then String c EmptyString
  else String (ascii_of_N (192 + n `div` 64))
         (String (ascii_of_N (128 + n `mod` 64)) EmptyString).

(** [arg.encode('utf-8')] on Python 3: a text is encoded (an instance of a
    subclass by the [encode] it inherits), and no other value of the
    universe has an [encode]. *)
Definition encode3 (arg : pyval) : option string :=
  match arg with
  | PText t | PTextSub _ t _ =>
      Some (foldr (λ c acc, utf8_char c +:+ acc) EmptyString
              (list_ascii_of_string t))
  | _ => None
  end.

(** ** The claims, as the specification states them *)

(** The claim as the specification states it: a keyword argument is
    reported under its name whatever else was bound to that name. *)
Definition keyword_takes_precedence (h : host) (spec : ArgSpec)
    (argv : list pyval) (kwargs : gmap string pyval) : Prop :=
  ∀ m n v, func_parameters h spec argv kwargs = Some m →
    kwargs !! n = Some v → m !! n = represent h v.

(** The claim as the specification states it: the name of the receiver is
    no key of the snapshot. *)
Definition receiver_never_reported (h : host) (spec : ArgSpec)
    (argv : list pyval) (kwargs : gmap string pyval) : Prop :=
  ∀ m r, receiver spec = Some r →
    func_parameters h spec argv kwargs = Some m → m !! r = None.

(** The claim as the specification states it. *)
Definition represent_total (h : host) : Prop :=
  ∀ item, is_Some (represent h item).

(** The kind of a value, as the table of the specification has it: by
    the type of the value. *)
Inductive kind :=
| Textual (t : string)
| Binary
| Other.

Definition kind_of (item : pyval) : kind :=
  match item with
  | PText t | PTextSub _ t _ => Textual t
  | PBytes _ | PByteArray _ => Binary
  | _ => Other
  end.

(** The table of the specification; the first rule that matches wins. *)
Definition decision_table (h : host) (item : pyval) : option string :=
  match kind_of item with
  | Textual t => Some ("'" +:+ t +:+ "'")
  | Binary => repr h (PType (type_of h item))
  | Other => repr h item
  end.

(** The claim as the specification states it: [represent] is the table. *)
Definition represent_follows_table (h : host) : Prop :=
  ∀ item, represent h item = decision_table h item.

(** The claim as the specification states it: [None] exactly when the
    exception class and the exception are both absent. *)
Definition None_iff_both_absent {etype_t value_t : Type}
    (etype_bool : etype_t → bool) (value_bool : value_t → bool)
    (format_exception_only : option etype_t → option value_t → list string) : Prop :=
  ∀ etype value,
    format_exception _ _ etype_bool value_bool format_exception_only etype value = None
    ↔ etype = None ∧ value = None.

(** An exception: its message and the truth value its class gives it. *)
Record exception := Exception {
  exc_message : string;
  exc_bool : bool
}.

(** [traceback.format_exception_only] of Python 3.5 to 3.9 on an exception
    that is no [SyntaxError], the class given by its name. *)
Definition final_exc_line (etype : option string) (value : option exception)
    : list string :=
  let name := default "None" etype in
  let message := default "None" (exc_message <$> value) in
  [if decide (message = EmptyString) then name +:+ String "010" EmptyString
   else name +:+ ": " +:+ message +:+ String "010" EmptyString].

(** The call [func_parameters(func, *args, **kwargs)] from its start: Python
    binds [func] first and raises [TypeError] when a keyword argument is
    named [func]; line 243 raises when [func] cannot be introspected, and
    [arg_spec] is then [None]. *)
Definition func_parameters_call (h : host) (arg_spec : option ArgSpec)
    (argv : list pyval) (kwargs : gmap string pyval) : option (gmap string string) :=
  if decide (is_Some (kwargs !! "func")) then None
  else spec ← arg_spec; func_parameters h spec argv kwargs.

(** The claim as the specification states it, in what it says of the keys:
    with a [**] parameter in the signature, a keyword argument whose name is
    not declared is kept in the mapping under the name of that parameter, and
    is no key of the snapshot itself. *)
Definition undeclared_keywords_nested (h : host) (spec : ArgSpec)
    (argv : list pyval) (kwargs : gmap string pyval) : Prop :=
  ∀ m name k, name_set (varkw spec) = Some name →
    func_parameters h spec argv kwargs = Some m →
    is_Some (kwargs !! k) → k ∉ args spec → k ≠ name → m !! k = None.

(** The signature with another [**] parameter, or none. *)
Definition with_varkw (vk : option string) (spec : ArgSpec) : ArgSpec :=
  {| args := args spec; varargs := varargs spec; varkw := vk;
     defaults := defaults spec |}.

(** The claim as the specification states it, in what it says of the key:
    the name of the [*] parameter is a key of the snapshot exactly when the
    call has more positional values than the signature has names. *)
Definition varargs_key_iff_surplus (h : host) (spec : ArgSpec)
    (argv : list pyval) (kwargs : gmap string pyval) : Prop :=
  ∀ m name, name_set (varargs spec) = Some name →
    func_parameters h spec argv kwargs = Some m →
    is_Some (m !! name) ↔ (length (args spec) < length argv)%nat.

(** A name is not in a list of names that is given. *)
Ltac not_in_list :=
  cbn; let Hin := fresh in
  intros Hin; repeat (apply elem_of_cons in Hin as [Hin|Hin]; [done|]);
  by apply elem_of_nil in Hin.

(** * Properties *)

(** ** Slices *)

Lemma elem_of_take_inv {A} (l : list A) n x : x ∈ take n l → x ∈ l.
Proof. intros Hx. rewrite <- (take_drop n l). apply elem_of_app. by left. Qed.

Lemma elem_of_drop_inv {A} (l : list A) n x : x ∈ drop n l → x ∈ l.
Proof. intros Hx. rewrite <- (take_drop n l). apply elem_of_app. by right. Qed.

(** ** Dicts built from pairs *)

Section DictZip.
Context {V : Type}.
Implicit Types (keys : list string) (values : list V) (d : gmap string V).

Lemma foldl_insert_notin (l : list (string * V)) d k :
  k ∉ l.*1 → foldl insert_pair d l !! k = d !! k.
Proof.
  revert d. induction l as [|[k' v'] l IH]; intros d Hk; [done|].
  cbn in *. rewrite not_elem_of_cons in Hk. destruct Hk as [Hne Hk].
  rewrite IH by done. unfold insert_pair; cbn. by rewrite lookup_insert_ne.
Qed.

Lemma foldl_insert_nodup (l : list (string * V)) d k v :
  NoDup l.*1 → (k, v) ∈ l → foldl insert_pair d l !! k = Some v.
Proof.
  revert d. induction l as [|[k' v'] l IH]; intros d Hnd Hin.
  { by apply elem_of_nil in Hin. }
  cbn in *. apply NoDup_cons in Hnd as [Hk' Hnd].
  apply elem_of_cons in Hin as [[= -> ->]|Hin].
  - rewrite foldl_insert_notin by done. unfold insert_pair; cbn. apply lookup_insert_eq.
  - by apply IH.
Qed.

Lemma fst_zip_take keys values : (zip keys values).*1 = take (length values) keys.
Proof.
  revert values. induction keys as [|k keys IH]; intros [|v values]; cbn; try done.
  by rewrite IH.
Qed.

Lemma dict_zip_None keys values k :
  k ∉ take (length values) keys → dict_zip keys values !! k = None.
Proof.
  intros Hk. unfold dict_zip.
  rewrite foldl_insert_notin; [apply lookup_empty|]. by rewrite fst_zip_take.
Qed.

Lemma dict_zip_is_Some keys values k :
  is_Some (dict_zip keys values !! k) → k ∈ take (length values) keys.
Proof.
  intros Hs. destruct (decide (k ∈ take (length values) keys)) as [|Hn]; [done|].
  apply dict_zip_None in Hn. rewrite Hn in Hs. by destruct Hs.
Qed.

Lemma dict_zip_elem_of keys values k :
  is_Some (dict_zip keys values !! k) → k ∈ keys.
Proof.
  intros Hs%dict_zip_is_Some. by eapply elem_of_take_inv.
Qed.

Lemma dict_zip_Some keys values i k v :
  NoDup keys → keys !! i = Some k → values !! i = Some v →
  dict_zip keys values !! k = Some v.
Proof.
  intros Hnd Hk Hv. unfold dict_zip. apply foldl_insert_nodup.
  - rewrite fst_zip_take. eapply sublist_NoDup; [done|]. apply sublist_take.
  - apply list_elem_of_lookup. exists i. apply lookup_zip_with_Some. eauto.
Qed.

Lemma dict_zip_nil_r keys : dict_zip keys (@nil V) = ∅.
Proof. unfold dict_zip. by destruct keys. Qed.

End DictZip.

(** ** Rendering the values of a dict *)

Section RenderItems.
Variable h : host.

Lemma render_item_Some kv ks :
  render_item h kv = Some ks → ks.1 = kv.1 ∧ represent h kv.2 = Some ks.2.
Proof.
  unfold render_item. destruct (represent h kv.2); cbn; [|done].
  by intros [= <-].
Qed.

Lemma render_item_keys l items :
  Forall2 (λ x y, render_item h x = Some y) l items → items.*1 = l.*1.
Proof.
  induction 1 as [|x y l items Hxy _ IH]; [done|].
  cbn. apply render_item_Some in Hxy as [-> _]. by rewrite IH.
Qed.

Lemma render_item_elem_of l items k v :
  Forall2 (λ x y, render_item h x = Some y) l items → (k, v) ∈ l →
  ∃ s, represent h v = Some s ∧ (k, s) ∈ items.
Proof.
  induction 1 as [|x [k' s'] l items Hxy _ IH]; intros Hin.
  { by apply elem_of_nil in Hin. }
  apply elem_of_cons in Hin as [<-|Hin].
  - apply render_item_Some in Hxy as [Hk Hs]. cbn in *. subst k'.
    exists s'. split; [done|]. by left.
  - destruct (IH Hin) as (s & Hs & Hin'). exists s. split; [done|]. by right.
Qed.

(** A rendered dict has the keys of the dict, each bound to the rendering
    of its value. *)
Lemma render_items_lookup d m k :
  render_items h d = Some m → m !! k = d !! k ≫= represent h.
Proof.
  unfold render_items.
  destruct (mapM (render_item h) (map_to_list d)) as [items|] eqn:Hitems; [|done].
  cbn. intros [= <-]. apply mapM_Some_1 in Hitems.
  pose proof (render_item_keys _ _ Hitems) as Hkeys.
  destruct (d !! k) as [v|] eqn:Hk; cbn.
  - apply elem_of_map_to_list in Hk.
    destruct (render_item_elem_of _ _ _ _ Hitems Hk) as (s & -> & Hin).
    apply elem_of_list_to_map_1; [|done].
    rewrite Hkeys. apply NoDup_fst_map_to_list.
  - apply not_elem_of_list_to_map_1. rewrite Hkeys.
    intros ([k' v] & -> & Hin)%list_elem_of_fmap.
    apply elem_of_map_to_list in Hin. cbn in Hk. congruence.
Qed.

(** Rendering returns when every value renders. *)
Lemma render_items_is_Some d :
  (∀ k v, d !! k = Some v → is_Some (represent h v)) → is_Some (render_items h d).
Proof.
  intros Hall. unfold render_items.
  destruct (mapM (render_item h) (map_to_list d)) as [items|] eqn:Hitems; [by eexists|].
  apply mapM_None_1, Exists_exists in Hitems as ([k v] & Hin & Hnone).
  apply elem_of_map_to_list in Hin. destruct (Hall _ _ Hin) as [s Hs].
  unfold render_item in Hnone. cbn in Hnone. by rewrite Hs in Hnone.
Qed.

(** Rendering raises only when the rendering of a value does. *)
Lemma render_items_None d :
  render_items h d = None → ∃ k v, d !! k = Some v ∧ represent h v = None.
Proof.
  unfold render_items.
  destruct (mapM (render_item h) (map_to_list d)) as [items|] eqn:Hitems; [done|].
  intros _. apply mapM_None_1, Exists_exists in Hitems as ([k v] & Hin & Hnone).
  apply elem_of_map_to_list in Hin. exists k, v. split; [done|].
  unfold render_item in Hnone. cbn in Hnone. by destruct (represent h v).
Qed.

End RenderItems.

(** ** The merge of [func_parameters] *)

(** [parameters] is the positional pairs, over the keyword arguments, over
    the surplus tuple, over the defaults. *)
Lemma parameters_eq spec argv kwargs :
  parameters spec argv kwargs =
  args_dict spec argv ∪ (kwargs ∪ (varargs_dict spec argv ∪ defaults_dict spec argv)).
Proof.
  unfold parameters, args_dict, varargs_dict, defaults_dict, update.
  destruct (tuple_set (defaults spec)), (name_set (varargs spec)),
    (receiver spec), (drop (length (args spec)) argv);
    by rewrite ?(right_id_L ∅ (∪)), ?(left_id_L ∅ (∪)).
Qed.

Lemma parameters_lookup spec argv kwargs k :
  parameters spec argv kwargs !! k =
  match args_dict spec argv !! k with
  | Some v => Some v
  | None =>
      match kwargs !! k with
      | Some v => Some v
      | None =>
          match varargs_dict spec argv !! k with
          | Some v => Some v
          | None => defaults_dict spec argv !! k
          end
      end
  end.
Proof.
  rewrite parameters_eq, !lookup_union.
  destruct (args_dict spec argv !! k), (kwargs !! k),
    (varargs_dict spec argv !! k), (defaults_dict spec argv !! k); done.
Qed.

Lemma func_parameters_lookup h spec argv kwargs m k :
  func_parameters h spec argv kwargs = Some m →
  m !! k = parameters spec argv kwargs !! k ≫= represent h.
Proof. apply render_items_lookup. Qed.

Lemma func_parameters_renders h spec argv kwargs m k v :
  func_parameters h spec argv kwargs = Some m →
  parameters spec argv kwargs !! k = Some v → is_Some (represent h v).
Proof.
  intros Hm Hk. destruct (represent h v) as [s|] eqn:Hs; [by eexists|].
  unfold func_parameters, render_items in Hm.
  destruct (mapM _ _) as [items|] eqn:Hitems; [|done].
  apply mapM_Some_1 in Hitems. apply elem_of_map_to_list in Hk.
  destruct (render_item_elem_of h _ _ _ _ Hitems Hk) as (s & Hs' & _). congruence.
Qed.

(** The keys of the snapshot are the keys of [parameters]. *)
Lemma func_parameters_None_iff h spec argv kwargs m k :
  func_parameters h spec argv kwargs = Some m →
  m !! k = None ↔ parameters spec argv kwargs !! k = None.
Proof.
  intros Hm. rewrite (func_parameters_lookup _ _ _ _ _ k Hm).
  destruct (parameters spec argv kwargs !! k) as [v|] eqn:Hk; cbn; [|done].
  destruct (func_parameters_renders _ _ _ _ _ _ _ Hm Hk) as [s ->]. done.
Qed.

(** *** Where each part has keys *)

Lemma receiver_first spec r : receiver spec = Some r → ∃ names, args spec = r :: names.
Proof.
  unfold receiver. destruct (args spec) as [|name names]; [done|].
  case_bool_decide; [|done]. intros [= ->]. by eexists.
Qed.

Lemma args_dict_receiver spec argv r :
  receiver spec = Some r → args_dict spec argv !! r = None.
Proof. intros Hr. unfold args_dict. rewrite Hr. apply lookup_delete_eq. Qed.

Lemma args_dict_unpaired spec argv k :
  k ∉ take (length argv) (args spec) → args_dict spec argv !! k = None.
Proof.
  intros Hk. unfold args_dict. destruct (receiver spec) as [r|].
  - destruct (decide (r = k)) as [->|Hne].
    + apply lookup_delete_eq.
    + rewrite lookup_delete_ne by done. by apply dict_zip_None.
  - by apply dict_zip_None.
Qed.

Lemma args_dict_elem_of spec argv k :
  is_Some (args_dict spec argv !! k) → k ∈ args spec.
Proof.
  unfold args_dict. destruct (receiver spec) as [r|].
  - destruct (decide (r = k)) as [->|Hne].
    + rewrite lookup_delete_eq. by intros [? ?].
    + rewrite lookup_delete_ne by done. apply dict_zip_elem_of.
  - apply dict_zip_elem_of.
Qed.

Lemma args_dict_paired spec argv i k v :
  NoDup (args spec) → args spec !! i = Some k → argv !! i = Some v →
  receiver spec ≠ Some k → args_dict spec argv !! k = Some v.
Proof.
  intros Hnd Hk Hv Hr. unfold args_dict. destruct (receiver spec) as [r|].
  - rewrite lookup_delete_ne by congruence. by eapply dict_zip_Some.
  - by eapply dict_zip_Some.
Qed.

Lemma defaults_dict_elem_of spec argv k :
  is_Some (defaults_dict spec argv !! k) → k ∈ drop (length argv) (args spec).
Proof.
  unfold defaults_dict. destruct (tuple_set (defaults spec)) as [ds|].
  - apply dict_zip_elem_of.
  - rewrite lookup_empty. by intros [? ?].
Qed.

Lemma varargs_dict_lookup spec argv k v :
  varargs_dict spec argv !! k = Some v →
  varargs spec = Some k ∧ v = PTuple (drop (length (args spec)) argv)
  ∧ drop (length (args spec)) argv ≠ [].
Proof.
  unfold varargs_dict, name_set. destruct (varargs spec) as [name|]; [|done].
  case_decide; [done|]. destruct (drop _ argv) as [|x surplus]; [done|].
  intros [<- <-]%lookup_singleton_Some. done.
Qed.

Lemma varargs_dict_not_declared spec argv k :
  well_formed spec → k ∈ args spec → varargs_dict spec argv !! k = None.
Proof.
  intros [_ Hwf] Hk. destruct (varargs_dict spec argv !! k) as [v|] eqn:Hv; [|done].
  apply varargs_dict_lookup in Hv as (Hv & _). by destruct (Hwf _ Hv).
Qed.

(** * The claims *)

(** ** C1: keyword arguments against positional pairs and defaults *)

(** C1 fails as stated.  Signature [(a, b=2)], positional values [1, 3],
    keyword [b=4]: line 258
    merges [args_dict] after the keyword arguments, and [b] is reported as
    ['3']. *)
Lemma keyword_loses_to_positional_pair :
  ¬ keyword_takes_precedence cpython3
      (signature ["a"; "b"] [PInt 2] None None) [PInt 1; PInt 3] (kw [("b", PInt 4)]).
Proof.
  intros Hclaim.
  specialize (Hclaim (list_to_map [("a", "1"); ("b", "3")]) "b" (PInt 4)).
  assert (Some "3" = Some "4") as [=].
  apply Hclaim; vm_compute; reflexivity.
Qed.

(** C1, as the code has it: a keyword argument is reported under its name
    in place of a default, of the surplus tuple and of a popped receiver;
    where its name was paired with a positional value (and is not the popped
    receiver), the positional value is reported. *)
Theorem keyword_over_default_positional_over_keyword
    h spec argv kwargs m n v :
  func_parameters h spec argv kwargs = Some m →
  kwargs !! n = Some v →
  (n ∉ take (length argv) (args spec) ∨ receiver spec = Some n →
   m !! n = represent h v)
  ∧ (∀ i w, NoDup (args spec) → args spec !! i = Some n → argv !! i = Some w →
     receiver spec ≠ Some n → m !! n = represent h w).
Proof.
  intros Hm Hn. rewrite (func_parameters_lookup _ _ _ _ _ n Hm), parameters_lookup.
  split.
  - intros Hfree.
    assert (args_dict spec argv !! n = None) as ->.
    { destruct Hfree; [by apply args_dict_unpaired|by apply args_dict_receiver]. }
    by rewrite Hn.
  - intros i w Hnd Hi Hw Hr.
    by rewrite (args_dict_paired _ _ _ _ _ Hnd Hi Hw Hr).
Qed.

Lemma keyword_over_default_positional_over_keyword_witness :
  (list_to_map [("a", "1"); ("b", "4")] : gmap string string) !! "b"
  = represent cpython3 (PInt 4).
Proof.
  refine (proj1 (keyword_over_default_positional_over_keyword cpython3
    (signature ["a"; "b"] [PInt 2] None None) [PInt 1] (kw [("b", PInt 4)])
    (list_to_map [("a", "1"); ("b", "4")]) "b" (PInt 4) _ _) _).
  - vm_compute. reflexivity.
  - vm_compute. reflexivity.
  - left. not_in_list.
Defined.

(** The doctest of line 128, [args(1, b=2)]. *)
Example doctest_args_keyword :
  func_parameters cpython3 (signature ["a"; "b"] [] None None)
    [PInt 1] (kw [("b", PInt 2)])
  = Some (list_to_map [("a", "1"); ("b", "2")]).
Proof. vm_compute. reflexivity. Qed.

(** The example of the specification, [f(1, b=4)] for [(a, b=2)]. *)
Example keyword_over_default_example :
  func_parameters cpython3 (signature ["a"; "b"] [PInt 2] None None)
    [PInt 1] (kw [("b", PInt 4)])
  = Some (list_to_map [("a", "1"); ("b", "4")]).
Proof. vm_compute. reflexivity. Qed.

(** ** C2: defaults of the parameters a call omits *)

(** C2 fails on the code.  Signature [(a, b=2, c=3)] called as [f(1, 5)]:
    the specification has [c] bound to [3]; line 247 pairs the names
    after the positional values with the defaults from the first one on, so
    [c] is reported with the default of [b]. *)
Theorem omitted_parameter_gets_first_default :
  func_parameters cpython3 (signature ["a"; "b"; "c"] [PInt 2; PInt 3] None None)
    [PInt 1; PInt 5] ∅
  = Some (list_to_map [("a", "1"); ("b", "5"); ("c", "2")]).
Proof. vm_compute. reflexivity. Qed.

(** The doctest of line 154, [args_kwargs(1, 2)]: the names after the
    positional values are the defaulted ones, and the pairing is right. *)
Example doctest_args_kwargs :
  func_parameters cpython3 (signature ["a"; "b"; "c"; "d"] [PInt 3; PInt 4] None None)
    [PInt 1; PInt 2] ∅
  = Some (list_to_map [("a", "1"); ("b", "2"); ("c", "3"); ("d", "4")]).
Proof. vm_compute. reflexivity. Qed.

(** ** C3: the receiver *)

(** C3 fails as stated.  Signature [(self, a)] called with the keywords
    [self=obj, a=1]: line 255
    pops [self] from [args_dict] only, and the keyword [self] is reported. *)
Lemma receiver_reported_from_keyword :
  ¬ receiver_never_reported cpython3 (signature ["self"; "a"] [] None None) []
      (kw [("self", PInstance "Class" (Some "<Class object>")); ("a", PInt 1)]).
Proof.
  intros Hclaim.
  specialize (Hclaim (list_to_map [("self", "<Class object>"); ("a", "1")]) "self").
  assert (Some "<Class object>" = None) as [=].
  apply Hclaim; vm_compute; reflexivity.
Qed.

Lemma receiver_not_defaulted spec argv r :
  well_formed spec → receiver spec = Some r → argv ≠ [] →
  defaults_dict spec argv !! r = None.
Proof.
  intros [Hnd _] Hr Hargv. destruct (receiver_first _ _ Hr) as [names Hnames].
  destruct (defaults_dict spec argv !! r) as [v|] eqn:Hv; [|done].
  assert (r ∈ drop (length argv) (args spec)) as Hin.
  { apply defaults_dict_elem_of. by eexists. }
  destruct argv as [|x argv]; [done|].
  rewrite Hnames in Hnd, Hin. cbn in Hin. apply NoDup_cons in Hnd as [Hr' _].
  by apply elem_of_drop_inv in Hin.
Qed.

(** C3, as the code has it: for a signature that a [def] can declare, the
    name of the receiver is no key of the snapshot when the call has a
    positional value (which the receiver is paired with) and no keyword
    argument of that name; a keyword argument named like the receiver is
    reported under that name. *)
Theorem receiver_absent_when_positional h spec argv kwargs m r :
  well_formed spec →
  receiver spec = Some r →
  func_parameters h spec argv kwargs = Some m →
  (argv ≠ [] → kwargs !! r = None → m !! r = None)
  ∧ (∀ v, kwargs !! r = Some v → m !! r = represent h v).
Proof.
  intros Hwf Hr Hm. destruct (receiver_first _ _ Hr) as [names Hnames].
  assert (r ∈ args spec) as Hin by (rewrite Hnames; by left).
  split.
  - intros Hargv Hkw.
    rewrite (func_parameters_None_iff _ _ _ _ _ r Hm), parameters_lookup.
    rewrite (args_dict_receiver _ _ _ Hr), Hkw.
    rewrite (varargs_dict_not_declared _ _ _ Hwf Hin).
    by apply receiver_not_defaulted.
  - intros v Hv.
    rewrite (func_parameters_lookup _ _ _ _ _ r Hm), parameters_lookup.
    by rewrite (args_dict_receiver _ _ _ Hr), Hv.
Qed.

Lemma signature_well_formed names ds vk :
  NoDup names → well_formed (signature names ds None vk).
Proof. intros Hnd. split; [done|]. by intros name [=]. Qed.

Lemma receiver_absent_when_positional_witness :
  (list_to_map [("a", "1"); ("b", "2")] : gmap string string) !! "self" = None.
Proof.
  refine (proj1 (receiver_absent_when_positional cpython3
    (signature ["self"; "a"; "b"] [] None None)
    [PInstance "Class" (Some "<Class object>"); PInt 1; PInt 2] ∅
    (list_to_map [("a", "1"); ("b", "2")]) "self" _ _ _) _ _).
  - apply signature_well_formed. by apply (bool_decide_unpack _).
  - vm_compute. reflexivity.
  - vm_compute. reflexivity.
  - done.
  - vm_compute. reflexivity.
Defined.

(** The doctests of lines 232 and 235, [cls.args(1, 2)] and
    [cls.method_args(1, 2)]. *)
Example doctest_method :
  func_parameters cpython3 (signature ["self"; "a"; "b"] [] None None)
    [PInstance "Class" (Some "<Class object>"); PInt 1; PInt 2] ∅
  = Some (list_to_map [("a", "1"); ("b", "2")])
  ∧ func_parameters cpython3 (signature ["cls"; "a"; "b"] [] None None)
    [PType (UserClass "Class"); PInt 1; PInt 2] ∅
  = Some (list_to_map [("a", "1"); ("b", "2")]).
Proof. split; vm_compute; reflexivity. Qed.

(** ** C4: [represent] and values that do not render *)

(** C4 fails as stated.  An instance whose [__repr__] raises: [represent]
    has no handler around
    the call of [repr] at line 106, and raises as well. *)
Lemma represent_raises_with_repr :
  represent cpython3 (PInstance "Broken" None) = None ∧ ¬ represent_total cpython3.
Proof.
  split; [reflexivity|]. intros Hclaim.
  by destruct (Hclaim (PInstance "Broken" None)) as [s [=]].
Qed.

Lemma decoded_not_str h item :
  isinstance_binary item = false → decoded h item = item.
Proof.
  intros Hbin. unfold decoded.
  destruct item; try discriminate Hbin; cbn; by destruct (_ && _).
Qed.

(** C4, as the code has it: [represent] has no handler of its own.  On a
    host where [repr] returns on the type objects, it returns a string for
    every object of the text type, of [bytes] and of [bytearray]; for an
    instance of a subclass of the text type exactly when ['%s' % item], the
    [__str__] of the class, returns; and for every other value exactly when
    [repr] returns on it. *)
Theorem represent_returns_iff h item :
  (∀ ty, is_Some (repr h (PType ty))) →
  is_Some (represent h item)
  ↔ match item with
    | PText _ | PBytes _ | PByteArray _ => True
    | PTextSub _ _ fmt => is_Some fmt
    | _ => is_Some (repr h item)
    end.
Proof.
  intros Hty. unfold represent.
  destruct (isinstance_binary item) eqn:Hbin.
  - destruct item as [| | | | |bs|bs| | | |]; try discriminate Hbin;
      (split; [done|]); intros _; unfold decoded; cbn.
    + destruct (major h <? 3); cbn; [|apply Hty].
      destruct (decode h bs); [by eexists|apply Hty].
    + rewrite andb_false_r. apply Hty.
  - rewrite (decoded_not_str _ _ Hbin).
    destruct item as [| | | |cls t fmt| | | | | |]; try discriminate Hbin; cbn;
      try reflexivity.
    + split; [done|]. by eexists.
    + by destruct fmt.
Qed.

Lemma represent_returns_iff_witness :
  is_Some (represent cpython3 (PTextSub "Color" "red" (Some "Color.RED"))).
Proof.
  refine (proj2 (represent_returns_iff cpython3
    (PTextSub "Color" "red" (Some "Color.RED")) _) _).
  - intros ty. by eexists.
  - by eexists.
Defined.

(** ** C5: the decision table of [represent] *)

(** The rendering of an integer starts with a digit or a minus sign. *)
Lemma pretty_N_go_not_quoted x s t :
  (∀ t', s ≠ String "'" t') → pretty_N_go x s ≠ String "'" t.
Proof.
  revert s. induction (N.lt_wf_0 x) as [x _ IH]; intros s Hs.
  assert (x = 0 ∨ 0 < x)%N as [->|?] by lia.
  - rewrite pretty_N_go_0. apply Hs.
  - rewrite pretty_N_go_step by done. apply IH.
    { by apply N.div_lt. }
    intros t'. unfold pretty_N_char. by repeat case_match.
Qed.

Lemma pretty_Z_not_quoted (z : Z) t : pretty z ≠ quoted t.
Proof.
  unfold quoted, pretty, pretty_Z. destruct z as [|p|p]; cbn; [done| |done].
  unfold pretty, pretty_positive, pretty, pretty_N.
  case_decide; [done|]. by apply pretty_N_go_not_quoted.
Qed.

(** C5 fails as stated.  On Python 2 the [str] ['hi'], which is [bytes]
    there, is decoded by lines 95 to 99 and rendered as the text ['hi'],
    not as its type; and an instance of a subclass of the text type is
    rendered by the [__str__] of its class, not as its content. *)
Lemma represent_differs_from_table :
  ¬ represent_follows_table cpython2 ∧ ¬ represent_follows_table cpython3.
Proof.
  split; intros Hclaim.
  - specialize (Hclaim (PBytes "hi")). by vm_compute in Hclaim.
  - specialize (Hclaim (PTextSub "Color" "red" (Some "Color.RED"))).
    by vm_compute in Hclaim.
Qed.

(** C5, as the code has it: the first rule that matches wins.  An object of
    the text type is rendered between single quotes, as it is, and an
    instance of a subclass of the text type as what ['%s'] formats it to,
    between single quotes.  A [bytearray], a [bytes] of Python 3 and a [str]
    of Python 2 that is not UTF-8 are rendered as [repr] of their type,
    whatever their bytes; a [str] of Python 2 that is UTF-8 is rendered as
    the text it decodes to.  Any other value is rendered by [repr].  The
    rendering of an object of the text type differs from that of an
    integer. *)
Theorem represent_decision_table :
  (∀ h t, represent h (PText t) = Some ("'" +:+ t +:+ "'"))
  ∧ (∀ h cls t fmt,
       represent h (PTextSub cls t fmt) = (λ s, "'" +:+ s +:+ "'") <$> fmt)
  ∧ (∀ h bs, represent h (PByteArray bs) = repr h (PType (Builtin "bytearray")))
  ∧ (∀ h bs, 3 ≤ major h →
       represent h (PBytes bs) = repr h (PType (Builtin "bytes")))
  ∧ (∀ h bs, major h < 3 →
       represent h (PBytes bs)
       = match decode h bs with
         | Some t => Some ("'" +:+ t +:+ "'")
         | None => repr h (PType (Builtin "str"))
         end)
  ∧ (∀ h item, isinstance_text item = false → isinstance_binary item = false →
       represent h item = repr h item)
  ∧ represent cpython3 (PText "hello") = Some "'hello'"
  ∧ represent cpython3 (PInt 123) = Some "123"
  ∧ (∀ z t, represent cpython3 (PInt z) ≠ represent cpython3 (PText t)).
Proof.
  assert (∀ h t, represent h (PText t) = Some (quoted t)) as Htext.
  { intros h t. unfold represent, decoded. cbn. by destruct (_ && _). }
  split; [done|]. split.
  { intros h cls t fmt. unfold represent, decoded. cbn.
    by destruct (_ && _), fmt. }
  split.
  { intros h bs. unfold represent, decoded. cbn. by rewrite andb_false_r. }
  split.
  { intros h bs Hmajor. unfold represent, decoded, type_of. cbn.
    assert ((major h <? 3) = false) as -> by (apply Z.ltb_ge; lia). done. }
  split.
  { intros h bs Hmajor. unfold represent, decoded, type_of. cbn.
    assert ((major h <? 3) = true) as Hlt by (apply Z.ltb_lt; lia).
    rewrite Hlt. cbn. destruct (decode h bs); cbn; by rewrite ?Hlt. }
  split.
  { intros h item Htxt Hbin. unfold represent. rewrite (decoded_not_str _ _ Hbin).
    by destruct item. }
  split; [reflexivity|]. split; [reflexivity|].
  intros z t. rewrite Htext. intros [= Heq]. by apply pretty_Z_not_quoted in Heq.
Qed.

(** The doctests of lines 54 to 80 on Python 3, and those of lines 61
    and 73 on Python 2. *)
Example doctest_represent :
  represent cpython3 PNone = Some "None"
  ∧ represent cpython3 (PInt 123) = Some "123"
  ∧ represent cpython3 (PText "hi") = Some "'hi'"
  ∧ represent cpython3 (PByteArray (String "208" (String "191" EmptyString)))
    = Some "<class 'bytearray'>"
  ∧ represent cpython3 (PBytes (String "137" (String "000" EmptyString)))
    = Some "<class 'bytes'>"
  ∧ represent cpython3 (PType (Builtin "int")) = Some "<class 'int'>"
  ∧ represent cpython2 (PBytes "hi") = Some "'hi'"
  ∧ represent cpython2 (PBytes (String "137" (String "000" EmptyString)))
    = Some "<type 'str'>".
Proof. repeat split; reflexivity. Qed.

(** ** C6: keyword arguments that the signature does not declare *)

(** C6 fails as stated.  The doctest of line 200,
    [args_kwargs_varargs(1, 2, 4, d=5, e=6)] for [(a, b, c=3, **d)]: [e] is a
    key of the snapshot. *)
Lemma undeclared_keyword_is_flat :
  ¬ undeclared_keywords_nested cpython3
      (signature ["a"; "b"; "c"] [PInt 3] None (Some "d"))
      [PInt 1; PInt 2; PInt 4] (kw [("d", PInt 5); ("e", PInt 6)]).
Proof.
  intros Hclaim.
  specialize (Hclaim
    (list_to_map [("a", "1"); ("b", "2"); ("c", "4"); ("d", "5"); ("e", "6")])
    "d" "e").
  assert (Some "6" = None) as [=].
  apply Hclaim.
  - vm_compute. reflexivity.
  - vm_compute. reflexivity.
  - exists (PInt 6). vm_compute. reflexivity.
  - not_in_list.
  - done.
Qed.

(** C6, as the code has it: [func_parameters] does not read the name of the
    [**] parameter; a keyword argument whose name is not declared is a key
    of the snapshot itself, bound to the rendering of its value, whatever
    that parameter is and whether there is one. *)
Theorem keywords_merged_flat h spec argv kwargs m k v :
  func_parameters h spec argv kwargs = Some m →
  kwargs !! k = Some v →
  k ∉ args spec →
  m !! k = represent h v
  ∧ ∀ vk, func_parameters h (with_varkw vk spec) argv kwargs = Some m.
Proof.
  intros Hm Hk Hnot. split; [|intros vk; exact Hm].
  rewrite (func_parameters_lookup _ _ _ _ _ k Hm), parameters_lookup.
  destruct (args_dict spec argv !! k) as [w|] eqn:Hw.
  - destruct Hnot. apply (args_dict_elem_of spec argv). by eexists.
  - by rewrite Hk.
Qed.

Lemma keywords_merged_flat_witness :
  (list_to_map [("a", "1"); ("b", "2"); ("c", "4"); ("d", "5"); ("e", "6")]
     : gmap string string) !! "e" = represent cpython3 (PInt 6).
Proof.
  refine (proj1 (keywords_merged_flat cpython3
    (signature ["a"; "b"; "c"] [PInt 3] None (Some "d"))
    [PInt 1; PInt 2; PInt 4] (kw [("d", PInt 5); ("e", PInt 6)])
    (list_to_map [("a", "1"); ("b", "2"); ("c", "4"); ("d", "5"); ("e", "6")])
    "e" (PInt 6) _ _ _)).
  - vm_compute. reflexivity.
  - vm_compute. reflexivity.
  - not_in_list.
Defined.

(** The doctest of line 180, [keywords(a=1, b=2)], the only parameter being
    [**a]. *)
Example doctest_keywords :
  func_parameters cpython3 (signature [] [] None (Some "a")) []
    (kw [("a", PInt 1); ("b", PInt 2)])
  = Some (list_to_map [("a", "1"); ("b", "2")]).
Proof. vm_compute. reflexivity. Qed.

(** ** C7: the surplus of positional values *)

(** C7 fails as stated.  Signature [(a, *rest, **kw)] called as
    [f(1, rest=5)], which Python
    accepts: there is no surplus, and line 257 reports the keyword [rest]. *)
Lemma varargs_key_from_keyword :
  ¬ varargs_key_iff_surplus cpython3 (signature ["a"] [] (Some "rest") (Some "kw"))
      [PInt 1] (kw [("rest", PInt 5)]).
Proof.
  intros Hclaim.
  specialize (Hclaim (list_to_map [("a", "1"); ("rest", "5")]) "rest").
  assert (1 < 1)%nat as Hlt; [|lia].
  apply Hclaim; [vm_compute; reflexivity..|]. by eexists.
Qed.

Lemma varargs_dict_own spec argv name :
  name_set (varargs spec) = Some name →
  varargs_dict spec argv !! name =
  match drop (length (args spec)) argv with
  | [] => None
  | surplus => Some (PTuple surplus)
  end.
Proof.
  intros Hname. unfold varargs_dict. rewrite Hname.
  destruct (drop _ argv); [done|]. apply lookup_singleton_eq.
Qed.

Lemma represent_tuple h xs : represent h (PTuple xs) = repr h (PTuple xs).
Proof. unfold represent, decoded. by rewrite andb_false_r. Qed.

(** C7, as the code has it: for a [*] parameter whose name the signature
    does not declare again, and a call with no keyword argument of that
    name, the name is a key of the snapshot exactly when the call has more
    positional values than the signature has names, and is then bound to the
    rendering of the tuple of the surplus values, in their order. *)
Theorem surplus_reported_without_keyword h spec argv kwargs m name :
  name_set (varargs spec) = Some name →
  name ∉ args spec →
  kwargs !! name = None →
  func_parameters h spec argv kwargs = Some m →
  (is_Some (m !! name) ↔ (length (args spec) < length argv)%nat)
  ∧ ((length (args spec) < length argv)%nat →
     m !! name = repr h (PTuple (drop (length (args spec)) argv))).
Proof.
  intros Hname Hnot Hkw Hm.
  assert (parameters spec argv kwargs !! name =
          match drop (length (args spec)) argv with
          | [] => None
          | surplus => Some (PTuple surplus)
          end) as Hp.
  { rewrite parameters_lookup, Hkw, (varargs_dict_own _ _ _ Hname).
    destruct (args_dict spec argv !! name) as [w|] eqn:Hw.
    { destruct Hnot. apply (args_dict_elem_of spec argv). by eexists. }
    destruct (drop _ argv); [|done].
    destruct (defaults_dict spec argv !! name) as [w|] eqn:Hd; [|done].
    destruct Hnot. apply (elem_of_drop_inv _ (length argv)).
    apply defaults_dict_elem_of. by eexists. }
  pose proof (func_parameters_lookup _ _ _ _ _ name Hm) as Hl.
  pose proof (length_drop argv (length (args spec))) as Hlen.
  destruct (drop (length (args spec)) argv) as [|x surplus] eqn:Hdrop.
  - rewrite Hp in Hl. cbn in Hl, Hlen. rewrite Hl. split.
    + split; [by intros [? ?]|lia].
    + lia.
  - cbn in Hlen. destruct (func_parameters_renders _ _ _ _ _ _ _ Hm Hp) as [s Hs].
    rewrite Hp in Hl. cbn in Hl. rewrite Hl. split.
    + rewrite Hs. split; [lia|by eexists].
    + intros _. apply represent_tuple.
Qed.

Lemma surplus_reported_without_keyword_witness :
  (list_to_map [("a", "1"); ("rest", "(2, 3)")] : gmap string string) !! "rest"
  = repr cpython3 (PTuple [PInt 2; PInt 3]).
Proof.
  refine (proj2 (surplus_reported_without_keyword cpython3
    (signature ["a"] [] (Some "rest") None) [PInt 1; PInt 2; PInt 3] ∅
    (list_to_map [("a", "1"); ("rest", "(2, 3)")]) "rest" _ _ _ _) _).
  - vm_compute. reflexivity.
  - not_in_list.
  - vm_compute. reflexivity.
  - vm_compute. reflexivity.
  - cbn. lia.
Defined.

(** The examples of the specification, [f(1)] and [f(1, 2, 3)] for
    [(a, *rest)]. *)
Example surplus_examples :
  func_parameters cpython3 (signature ["a"] [] (Some "rest") None) [PInt 1] ∅
  = Some (list_to_map [("a", "1")])
  ∧ func_parameters cpython3 (signature ["a"] [] (Some "rest") None)
      [PInt 1; PInt 2; PInt 3] ∅
  = Some (list_to_map [("a", "1"); ("rest", "(2, 3)")]).
Proof. split; vm_compute; reflexivity. Qed.

(** ** C8: calls that miss a required parameter *)

(** [func_parameters] returns exactly when each value it reports renders:
    nothing else in it raises, whatever the call misses. *)
Lemma func_parameters_returns_iff h spec argv kwargs :
  is_Some (func_parameters h spec argv kwargs)
  ↔ ∀ k v, parameters spec argv kwargs !! k = Some v → is_Some (represent h v).
Proof.
  split.
  - intros [m Hm] k v. by apply func_parameters_renders with (m := m).
  - apply render_items_is_Some.
Qed.

(** C8 fails on the code.  Signature [(a, b=2)] called as [f()]: [a] has no
    default and is given no value, and the specification has it absent;
    line 247 pairs it with the default of [b], and [a] is a key of the
    snapshot. *)
Theorem required_parameter_gets_default :
  func_parameters cpython3 (signature ["a"; "b"] [PInt 2] None None) [] ∅
  = Some (list_to_map [("a", "2")]).
Proof. vm_compute. reflexivity. Qed.

(** Without defaults in the signature, the parameter is no key. *)
Example required_parameter_absent :
  func_parameters cpython3 (signature ["a"; "b"] [] None None) [PInt 1] ∅
  = Some (list_to_map [("a", "1")]).
Proof. vm_compute. reflexivity. Qed.

(** ** C9: [format_exception] *)

(** C9 fails as stated.  An exception whose class gives it a false truth
    value (by [__bool__] or [__len__]), passed without its class: line 316
    tests the truth value of [etype or value], and returns [None] although
    the exception is there. *)
Lemma falsy_exception_gives_None :
  ¬ None_iff_both_absent (λ _ : string, true) exc_bool final_exc_line.
Proof.
  intros Hclaim.
  destruct (Hclaim None (Some (Exception "x" false))) as [Habsent _].
  by destruct (Habsent eq_refl) as [_ [=]].
Qed.

(** C9, as the code has it: [format_exception] is a function that returns
    [None] exactly when the exception class and the exception are both
    false ([None], or an object whose class gives it a false truth value),
    and else the lines of [format_exception_only] joined by newlines; for
    classes and exceptions that are true, as they are unless their class
    says otherwise, it returns [None] exactly when both are [None]. *)
Theorem format_exception_None_iff :
  ∀ (etype_t value_t : Type)
    (etype_bool : etype_t → bool) (value_bool : value_t → bool)
    (format_exception_only : option etype_t → option value_t → list string)
    (etype : option etype_t) (value : option value_t),
  (format_exception _ _ etype_bool value_bool format_exception_only etype value = None
   ↔ truthy etype_bool etype = false ∧ truthy value_bool value = false)
  ∧ (truthy etype_bool etype = true ∨ truthy value_bool value = true →
     format_exception _ _ etype_bool value_bool format_exception_only etype value
     = Some (join (String "010" EmptyString) (format_exception_only etype value)))
  ∧ ((∀ e, etype_bool e = true) → (∀ v, value_bool v = true) →
     (format_exception _ _ etype_bool value_bool format_exception_only etype value = None
      ↔ etype = None ∧ value = None)).
Proof.
  intros E V eb vb f etype value. unfold format_exception.
  split; [|split].
  - destruct (truthy eb etype), (truthy vb value); cbn; split; try done;
      by intros [? ?].
  - intros [->| ->]; [done|]. by rewrite orb_true_r.
  - intros He Hv. destruct etype as [e|], value as [v|]; cbn;
      rewrite ?He, ?Hv; cbn; split; try done; by intros [? ?].
Qed.

(** ['AssertionError: x\n'], and [None] without a class and an exception. *)
Example format_exception_examples :
  format_exception _ _ (λ _ : string, true) exc_bool final_exc_line
    (Some "AssertionError") (Some (Exception "x" true))
  = Some ("AssertionError: x" +:+ String "010" EmptyString)
  ∧ format_exception _ _ (λ _ : string, true) exc_bool final_exc_line None None = None.
Proof. split; reflexivity. Qed.

Example join_lines :
  join (String "010" EmptyString) ["a"; "b"; "c"]
  = "a" +:+ String "010" ("b" +:+ String "010" "c").
Proof. reflexivity. Qed.

(** ** C10: surplus positional values without a [*] parameter *)

Lemma parameters_take spec argv kwargs :
  name_set (varargs spec) = None →
  parameters spec argv kwargs
  = parameters spec (take (length (args spec)) argv) kwargs.
Proof.
  intros Hva. rewrite !parameters_eq.
  assert (args_dict spec (take (length (args spec)) argv) = args_dict spec argv) as ->.
  { unfold args_dict, dict_zip. by rewrite zip_with_take_r. }
  assert (varargs_dict spec (take (length (args spec)) argv) = varargs_dict spec argv) as ->.
  { unfold varargs_dict. by rewrite Hva. }
  assert (defaults_dict spec (take (length (args spec)) argv) = defaults_dict spec argv) as ->.
  { unfold defaults_dict. destruct (tuple_set (defaults spec)) as [ds|]; [|done].
    destruct (decide (length argv ≤ length (args spec))%nat) as [Hle|Hgt].
    - by rewrite take_ge.
    - rewrite length_take, !drop_ge by (try rewrite length_take; lia). done. }
  done.
Qed.

(** C10: without a [*] parameter, the positional values beyond the declared
    names are dropped: the call returns what the call without them returns
    (a snapshot, or the error of a value that does not render), and each key
    of the snapshot is a declared name or the name of a keyword argument. *)
Theorem surplus_discarded_without_varargs h spec argv kwargs :
  name_set (varargs spec) = None →
  func_parameters h spec argv kwargs
  = func_parameters h spec (take (length (args spec)) argv) kwargs
  ∧ ∀ m k, func_parameters h spec argv kwargs = Some m →
      is_Some (m !! k) → k ∈ args spec ∨ is_Some (kwargs !! k).
Proof.
  intros Hva. split.
  - unfold func_parameters. by rewrite <- parameters_take.
  - intros m k Hm. rewrite (func_parameters_lookup _ _ _ _ _ k Hm), parameters_lookup.
    destruct (args_dict spec argv !! k) as [w|] eqn:Hw.
    { intros _. left. apply (args_dict_elem_of spec argv). by eexists. }
    destruct (kwargs !! k) as [w|] eqn:Hk.
    { intros _. right. by eexists. }
    assert (varargs_dict spec argv !! k = None) as ->.
    { unfold varargs_dict. rewrite Hva. apply lookup_empty. }
    destruct (defaults_dict spec argv !! k) as [w|] eqn:Hd.
    + intros _. left. apply (elem_of_drop_inv _ (length argv)).
      apply defaults_dict_elem_of. by eexists.
    + by intros [? ?].
Qed.

Lemma surplus_discarded_without_varargs_witness :
  func_parameters cpython3 (signature ["a"; "b"] [] None None)
    [PInt 1; PInt 2; PInstance "Broken" None] ∅
  = func_parameters cpython3 (signature ["a"; "b"] [] None None)
    [PInt 1; PInt 2] ∅.
Proof.
  refine (proj1 (surplus_discarded_without_varargs cpython3
    (signature ["a"; "b"] [] None None)
    [PInt 1; PInt 2; PInstance "Broken" None] ∅ _)).
  reflexivity.
Defined.

Example surplus_discarded_example :
  func_parameters cpython3 (signature ["a"; "b"] [] None None)
    [PInt 1; PInt 2; PInstance "Broken" None] ∅
  = Some (list_to_map [("a", "1"); ("b", "2")]).
Proof. vm_compute. reflexivity. Qed.

(** * Further properties of the code *)

(** ** More on dicts built from pairs *)

Lemma foldl_insert_pair_Some {V} (l : list (string * V)) (d : gmap string V) k v :
  foldl insert_pair d l !! k = Some v → (k, v) ∈ l ∨ d !! k = Some v.
Proof.
  revert d. induction l as [|[k' v'] l IH]; intros d Hk; [by right|].
  cbn in Hk. destruct (IH _ Hk) as [Hin|Hd].
  - left. by right.
  - unfold insert_pair in Hd. cbn in Hd.
    apply lookup_insert_Some in Hd as [[-> ->]|[_ Hd]]; [left; by left|by right].
Qed.

Lemma dict_zip_value {V} (keys : list string) (values : list V) k v :
  dict_zip keys values !! k = Some v → v ∈ values.
Proof.
  intros Hk. apply foldl_insert_pair_Some in Hk as [Hin|Hk].
  - by eapply elem_of_zip_r.
  - by rewrite lookup_empty in Hk.
Qed.

Lemma foldl_insert_pair_union {V} (l : list (string * V)) (d : gmap string V) :
  foldl insert_pair d l = foldl insert_pair ∅ l ∪ d.
Proof.
  revert d. induction l as [|[k v] l IH]; intros d; cbn [foldl].
  - by rewrite (left_id_L ∅ (∪)).
  - rewrite (IH (insert_pair d (k, v))), (IH (insert_pair ∅ (k, v))).
    unfold insert_pair; cbn.
    rewrite <- (assoc_L (∪)). f_equal.
    by rewrite insert_union_singleton_l, insert_empty.
Qed.

Lemma not_elem_of_take_lookup {A} (l : list A) n i x :
  NoDup l → l !! i = Some x → (n ≤ i)%nat → x ∉ take n l.
Proof.
  intros Hnd Hi Hle (j & Hj & Hlt)%elem_of_take.
  pose proof (NoDup_lookup _ _ _ _ Hnd Hi Hj). lia.
Qed.

(** ** Where the values of [parameters] come from *)

Lemma args_dict_value spec argv k v :
  args_dict spec argv !! k = Some v → v ∈ argv.
Proof.
  unfold args_dict. destruct (receiver spec) as [r|].
  - intros [_ Hk]%lookup_delete_Some. by eapply dict_zip_value.
  - apply dict_zip_value.
Qed.

Lemma defaults_dict_value spec argv k v :
  defaults_dict spec argv !! k = Some v → ∃ ds, defaults spec = Some ds ∧ v ∈ ds.
Proof.
  unfold defaults_dict, tuple_set.
  destruct (defaults spec) as [[|d ds]|]; try by rewrite lookup_empty.
  intros Hk%dict_zip_value. eauto.
Qed.

Lemma parameters_value spec argv kwargs k v :
  parameters spec argv kwargs !! k = Some v →
  v ∈ argv ∨ kwargs !! k = Some v
  ∨ (∃ ds, defaults spec = Some ds ∧ v ∈ ds)
  ∨ (varargs spec = Some k ∧ v = PTuple (drop (length (args spec)) argv)
     ∧ (length (args spec) < length argv)%nat).
Proof.
  rewrite parameters_lookup.
  destruct (args_dict spec argv !! k) as [w|] eqn:Ha.
  { intros [= ->]. left. by eapply args_dict_value. }
  destruct (kwargs !! k) as [w|] eqn:Hk.
  { intros [= ->]. right. by left. }
  destruct (varargs_dict spec argv !! k) as [w|] eqn:Hv.
  { intros [= ->]. right. right. right.
    apply varargs_dict_lookup in Hv as (Hname & -> & Hne). repeat split; [done|].
    destruct (decide (length (args spec) < length argv)%nat); [done|].
    destruct Hne. apply drop_ge. lia. }
  intros Hd. right. right. left. by eapply defaults_dict_value.
Qed.

(** The name at position [length argv + j] is paired with the default at
    position [j]. *)
Lemma defaults_dict_paired spec argv ds j n d :
  NoDup (args spec) → tuple_set (defaults spec) = Some ds →
  args spec !! (length argv + j)%nat = Some n → ds !! j = Some d →
  defaults_dict spec argv !! n = Some d.
Proof.
  intros Hnd Hds Hn Hd. unfold defaults_dict. rewrite Hds.
  apply dict_zip_Some with (i := j); [|by rewrite lookup_drop|done].
  eapply sublist_NoDup; [done|]. apply sublist_drop.
Qed.

Lemma parameters_default spec argv kwargs ds j n d :
  well_formed spec → tuple_set (defaults spec) = Some ds →
  args spec !! (length argv + j)%nat = Some n → ds !! j = Some d →
  kwargs !! n = None →
  parameters spec argv kwargs !! n = Some d.
Proof.
  intros Hwf Hds Hn Hd Hkw. rewrite parameters_lookup, Hkw.
  rewrite args_dict_unpaired.
  2:{ eapply not_elem_of_take_lookup; [apply Hwf|done|lia]. }
  rewrite (varargs_dict_not_declared _ _ _ Hwf).
  2:{ apply list_elem_of_lookup. eauto. }
  destruct Hwf as [Hnd _]. by eapply defaults_dict_paired.
Qed.

(** ** [func_parameters]: what the snapshot holds *)

(** X1: a declared name that is paired with a positional value, and is not
    the popped receiver, is reported with the rendering of that value,
    whatever its default and whatever the keyword arguments are. *)
Theorem positional_value_reported h spec argv kwargs m i n w :
  NoDup (args spec) →
  args spec !! i = Some n →
  argv !! i = Some w →
  receiver spec ≠ Some n →
  func_parameters h spec argv kwargs = Some m →
  m !! n = represent h w.
Proof.
  intros Hnd Hi Hw Hr Hm.
  rewrite (func_parameters_lookup _ _ _ _ _ n Hm), parameters_lookup.
  by rewrite (args_dict_paired _ _ _ _ _ Hnd Hi Hw Hr).
Qed.

Lemma positional_value_reported_witness :
  (list_to_map [("a", "1"); ("b", "5"); ("c", "2")] : gmap string string) !! "b"
  = represent cpython3 (PInt 5).
Proof.
  refine (positional_value_reported cpython3
    (signature ["a"; "b"; "c"] [PInt 2; PInt 3] None None) [PInt 1; PInt 5] ∅
    (list_to_map [("a", "1"); ("b", "5"); ("c", "2")]) 1%nat "b" (PInt 5) _ _ _ _ _).
  - by apply (bool_decide_unpack _).
  - reflexivity.
  - reflexivity.
  - by vm_compute.
  - vm_compute. reflexivity.
Defined.

(** X2: every key of the snapshot is a declared name, the name of the [*]
    parameter, or the name of a keyword argument. *)
Theorem snapshot_keys h spec argv kwargs m k :
  func_parameters h spec argv kwargs = Some m →
  is_Some (m !! k) →
  k ∈ args spec ∨ varargs spec = Some k ∨ is_Some (kwargs !! k).
Proof.
  intros Hm. rewrite (func_parameters_lookup _ _ _ _ _ k Hm), parameters_lookup.
  destruct (args_dict spec argv !! k) as [w|] eqn:Ha.
  { intros _. left. apply (args_dict_elem_of spec argv). by eexists. }
  destruct (kwargs !! k) as [w|] eqn:Hk.
  { intros _. right. right. by eexists. }
  destruct (varargs_dict spec argv !! k) as [w|] eqn:Hv.
  { intros _. right. left. by apply varargs_dict_lookup in Hv as (? & _). }
  destruct (defaults_dict spec argv !! k) as [w|] eqn:Hd.
  - intros _. left. apply (elem_of_drop_inv _ (length argv)).
    apply defaults_dict_elem_of. by eexists.
  - by intros [? ?].
Qed.

Lemma snapshot_keys_witness :
  "rest" ∈ ["a"] ∨ Some "rest" = Some "rest"
  ∨ is_Some ((∅ : gmap string pyval) !! "rest").
Proof.
  refine (snapshot_keys cpython3 (signature ["a"] [] (Some "rest") None)
    [PInt 1; PInt 2; PInt 3] ∅
    (list_to_map [("a", "1"); ("rest", "(2, 3)")]) "rest" _ _).
  - vm_compute. reflexivity.
  - by eexists.
Defined.

(** X3: every value of the snapshot is the rendering of a value of the
    call or of the signature: a positional value, the keyword argument of
    that name, a default, or the tuple of the surplus positional values
    under the name of the [*] parameter. *)
Theorem snapshot_values h spec argv kwargs m k s :
  func_parameters h spec argv kwargs = Some m →
  m !! k = Some s →
  ∃ v, represent h v = Some s
    ∧ (v ∈ argv ∨ kwargs !! k = Some v
       ∨ (∃ ds, defaults spec = Some ds ∧ v ∈ ds)
       ∨ (varargs spec = Some k ∧ v = PTuple (drop (length (args spec)) argv)
          ∧ (length (args spec) < length argv)%nat)).
Proof.
  intros Hm. rewrite (func_parameters_lookup _ _ _ _ _ k Hm).
  destruct (parameters spec argv kwargs !! k) as [v|] eqn:Hk; [|done].
  cbn. intros Hs. exists v. split; [done|]. by apply parameters_value.
Qed.

Lemma snapshot_values_witness :
  ∃ v, represent cpython3 v = Some "3"
    ∧ (v ∈ [PInt 1; PInt 2] ∨ (∅ : gmap string pyval) !! "c" = Some v
       ∨ (∃ ds, Some [PInt 3; PInt 4] = Some ds ∧ v ∈ ds)
       ∨ (None = Some "c" ∧ v = PTuple [] ∧ (4 < 2)%nat)).
Proof.
  refine (snapshot_values cpython3
    (signature ["a"; "b"; "c"; "d"] [PInt 3; PInt 4] None None) [PInt 1; PInt 2] ∅
    (list_to_map [("a", "1"); ("b", "2"); ("c", "3"); ("d", "4")]) "c" "3" _ _).
  - vm_compute. reflexivity.
  - vm_compute. reflexivity.
Defined.

(** X4: the pairing of line 247.  For a signature that a [def] can declare,
    the name at position [len(args) + j] of the declared names is reported
    with the rendering of the default at position [j] of
    [arg_spec.defaults], unless a keyword argument has that name. *)
Theorem default_paired_from_first h spec argv kwargs m ds j n d :
  well_formed spec →
  tuple_set (defaults spec) = Some ds →
  args spec !! (length argv + j)%nat = Some n →
  ds !! j = Some d →
  kwargs !! n = None →
  func_parameters h spec argv kwargs = Some m →
  m !! n = represent h d.
Proof.
  intros Hwf Hds Hn Hd Hkw Hm.
  rewrite (func_parameters_lookup _ _ _ _ _ n Hm).
  by rewrite (parameters_default _ _ _ _ _ _ _ Hwf Hds Hn Hd Hkw).
Qed.

Lemma default_paired_from_first_witness :
  (list_to_map [("a", "1"); ("b", "5"); ("c", "2")] : gmap string string) !! "c"
  = represent cpython3 (PInt 2).
Proof.
  refine (default_paired_from_first cpython3
    (signature ["a"; "b"; "c"] [PInt 2; PInt 3] None None) [PInt 1; PInt 5] ∅
    (list_to_map [("a", "1"); ("b", "5"); ("c", "2")])
    [PInt 2; PInt 3] 0%nat "c" (PInt 2) _ _ _ _ _ _).
  - apply signature_well_formed. by apply (bool_decide_unpack _).
  - reflexivity.
  - reflexivity.
  - reflexivity.
  - reflexivity.
  - vm_compute. reflexivity.
Defined.

(** X5: when the positional values end where the defaulted parameters start
    ([len(args) + len(defaults) = len(arg_spec.args)]), each defaulted
    parameter that no keyword argument names is reported with the rendering
    of its own default. *)
Theorem default_reported_when_aligned h spec argv kwargs m ds j n d :
  well_formed spec →
  defaults spec = Some ds →
  (length argv + length ds = length (args spec))%nat →
  args spec !! (length (args spec) - length ds + j)%nat = Some n →
  ds !! j = Some d →
  kwargs !! n = None →
  func_parameters h spec argv kwargs = Some m →
  m !! n = represent h d.
Proof.
  intros Hwf Hds Hlen Hn Hd Hkw Hm.
  rewrite (func_parameters_lookup _ _ _ _ _ n Hm).
  rewrite (parameters_default spec argv kwargs ds j n d); try done.
  - unfold tuple_set. rewrite Hds. by destruct ds.
  - by replace (length argv + j)%nat
      with (length (args spec) - length ds + j)%nat by lia.
Qed.

Lemma default_reported_when_aligned_witness :
  (list_to_map [("a", "1"); ("b", "2"); ("c", "3"); ("d", "4")]
     : gmap string string) !! "d" = represent cpython3 (PInt 4).
Proof.
  refine (default_reported_when_aligned cpython3
    (signature ["a"; "b"; "c"; "d"] [PInt 3; PInt 4] None None) [PInt 1; PInt 2] ∅
    (list_to_map [("a", "1"); ("b", "2"); ("c", "3"); ("d", "4")])
    [PInt 3; PInt 4] 1%nat "d" (PInt 4) _ _ _ _ _ _ _).
  - apply signature_well_formed. by apply (bool_decide_unpack _).
  - reflexivity.
  - reflexivity.
  - reflexivity.
  - reflexivity.
  - reflexivity.
  - vm_compute. reflexivity.
Defined.


(** X7: a name that the signature neither declares nor has as its [*]
    parameter is a key of the snapshot exactly when a keyword argument has
    that name, and is then bound to the rendering of that argument. *)
Theorem undeclared_name_iff_keyword h spec argv kwargs m k :
  k ∉ args spec →
  varargs spec ≠ Some k →
  func_parameters h spec argv kwargs = Some m →
  m !! k = kwargs !! k ≫= represent h.
Proof.
  intros Hnot Hva Hm.
  rewrite (func_parameters_lookup _ _ _ _ _ k Hm), parameters_lookup.
  destruct (args_dict spec argv !! k) as [w|] eqn:Ha.
  { destruct Hnot. apply (args_dict_elem_of spec argv). by eexists. }
  destruct (kwargs !! k) as [w|]; [done|].
  destruct (varargs_dict spec argv !! k) as [w|] eqn:Hv.
  { by apply varargs_dict_lookup in Hv as (? & _). }
  destruct (defaults_dict spec argv !! k) as [w|] eqn:Hd; [|done].
  destruct Hnot. apply (elem_of_drop_inv _ (length argv)).
  apply defaults_dict_elem_of. by eexists.
Qed.

Lemma undeclared_name_iff_keyword_witness :
  (list_to_map [("a", "1"); ("b", "2"); ("c", "4"); ("d", "5"); ("e", "6")]
     : gmap string string) !! "f"
  = kw [("d", PInt 5); ("e", PInt 6)] !! "f" ≫= represent cpython3.
Proof.
  refine (undeclared_name_iff_keyword cpython3
    (signature ["a"; "b"; "c"] [PInt 3] None (Some "d"))
    [PInt 1; PInt 2; PInt 4] (kw [("d", PInt 5); ("e", PInt 6)])
    (list_to_map [("a", "1"); ("b", "2"); ("c", "4"); ("d", "5"); ("e", "6")])
    "f" _ _ _).
  - not_in_list.
  - done.
  - vm_compute. reflexivity.
Defined.


(** A keyword argument named [func] makes the call raise. *)
Example keyword_named_func :
  func_parameters_call cpython3 (Some (signature ["func"] [] None None)) []
    (kw [("func", PInt 1)]) = None.
Proof. reflexivity. Qed.

(** X8: a call of a method is reported as the call of the same function
    declared without the receiver: for a signature whose first name is
    [self] or [cls] and has no default, whose names are distinct and whose
    second name is not a receiver name, the snapshot of a call with at least
    one positional value is the snapshot of the call without the first value
    for the signature without the first name. *)
Theorem receiver_call_as_function h spec argv kwargs r x :
  receiver spec = Some r →
  NoDup (args spec) →
  (∀ ds, defaults spec = Some ds → (length ds < length (args spec))%nat) →
  receiver (without_first spec) = None →
  func_parameters h spec (x :: argv) kwargs
  = func_parameters h (without_first spec) argv kwargs.
Proof.
  intros Hr Hnd _ Hnone. destruct (receiver_first _ _ Hr) as [names Hnames].
  unfold func_parameters. f_equal. rewrite !parameters_eq.
  assert (args_dict spec (x :: argv) = args_dict (without_first spec) argv) as ->.
  { unfold args_dict. rewrite Hr, Hnone. cbn [without_first args]. rewrite Hnames.
    cbn [tail]. unfold dict_zip. cbn [zip_with foldl].
    rewrite foldl_insert_pair_union. unfold insert_pair at 2; cbn.
    rewrite Hnames in Hnd. apply NoDup_cons in Hnd as [Hnot _].
    apply map_eq. intros k. destruct (decide (k = r)) as [->|Hne].
    - rewrite lookup_delete_eq. symmetry. apply (dict_zip_None names argv).
      intros Hin%elem_of_take_inv. done.
    - rewrite lookup_delete_ne, lookup_union by done.
      rewrite lookup_insert_ne, lookup_empty by done.
      by destruct (foldl insert_pair ∅ (zip names argv) !! k). }
  assert (varargs_dict spec (x :: argv) = varargs_dict (without_first spec) argv) as ->.
  { unfold varargs_dict. cbn [without_first args varargs]. by rewrite Hnames. }
  assert (defaults_dict spec (x :: argv) = defaults_dict (without_first spec) argv) as ->.
  { unfold defaults_dict. cbn [without_first args defaults]. by rewrite Hnames. }
  done.
Qed.

Lemma receiver_call_as_function_witness :
  func_parameters cpython3 (signature ["self"; "a"; "b"] [PInt 2] None None)
    [PInstance "Class" None; PInt 1] (kw [("b", PInt 3)])
  = func_parameters cpython3 (without_first (signature ["self"; "a"; "b"] [PInt 2] None None))
    [PInt 1] (kw [("b", PInt 3)]).
Proof.
  refine (receiver_call_as_function cpython3
    (signature ["self"; "a"; "b"] [PInt 2] None None) [PInt 1] (kw [("b", PInt 3)])
    "self" (PInstance "Class" None) _ _ _ _).
  - reflexivity.
  - by apply (bool_decide_unpack _).
  - intros ds [= <-]. cbn. lia.
  - reflexivity.
Defined.

(** ** [represent]: texts and byte strings *)

Lemma string_app_assoc (a b c : string) : (a +:+ b) +:+ c = a +:+ b +:+ c.
Proof.
  induction a as [|x a IH]; [done|].
  change (String x ((a +:+ b) +:+ c) = String x (a +:+ b +:+ c)). by rewrite IH.
Qed.

Lemma string_app_inj_r (t t' : string) c :
  t +:+ String c EmptyString = t' +:+ String c EmptyString → t = t'.
Proof.
  revert t'. induction t as [|x t IH]; intros [|x' t'] Heq; [done|..].
  - change (String c EmptyString = String x' (t' +:+ String c EmptyString)) in Heq.
    injection Heq as _ Heq. by destruct t'.
  - change (String x (t +:+ String c EmptyString) = String c EmptyString) in Heq.
    injection Heq as _ Heq. by destruct t.
  - change (String x (t +:+ String c EmptyString)
            = String x' (t' +:+ String c EmptyString)) in Heq.
    injection Heq as -> Heq. f_equal. by apply IH.
Qed.

(** X9: the rendering of an object of the very text type ([str], not an
    instance of a subclass) determines the text: two such objects with the
    same rendering, on whatever hosts, hold the same text. *)
Theorem text_rendering_injective h h' t t' :
  represent h (PText t) = represent h' (PText t') → t = t'.
Proof.
  assert (∀ h t, represent h (PText t) = Some (quoted t)) as Htext.
  { intros h0 t0. unfold represent, decoded. cbn. by destruct (_ && _). }
  rewrite !Htext. intros Heq. apply (inj Some) in Heq. unfold quoted in Heq.
  apply (inj (String.append "'")) in Heq. by apply string_app_inj_r in Heq.
Qed.

Lemma text_rendering_injective_witness : "it's" = "it's".
Proof.
  refine (text_rendering_injective cpython3 cpython2 "it's" "it's" _).
  reflexivity.
Defined.

(** X10: on Python 3 [represent] decodes nothing: whatever [str.decode]
    would do, the rendering of every value is the same. *)
Theorem python3_never_decodes h decode' item :
  3 ≤ major h →
  represent (Host (major h) decode' (repr h)) item = represent h item.
Proof.
  intros Hmajor. unfold represent, decoded, type_of. cbn.
  assert ((major h <? 3) = false) as -> by (apply Z.ltb_ge; lia). done.
Qed.

Lemma python3_never_decodes_witness :
  represent (Host 3 (λ bs, Some bs) (repr cpython3)) (PBytes "hi")
  = represent cpython3 (PBytes "hi").
Proof.
  refine (python3_never_decodes cpython3 (λ bs, Some bs) (PBytes "hi") _).
  cbn. lia.
Defined.

(** X11: on Python 2 a [str] that decodes as UTF-8 is rendered as the
    [unicode] text it decodes to, and one that does not decode is rendered
    as the type [str]. *)
Theorem python2_str_as_unicode h bs :
  major h < 3 →
  represent h (PBytes bs)
  = match decode h bs with
    | Some t => represent h (PText t)
    | None => repr h (PType (Builtin "str"))
    end.
Proof.
  intros Hmajor. unfold represent, decoded, type_of. cbn.
  assert ((major h <? 3) = true) as Hlt by (apply Z.ltb_lt; lia).
  assert ((3 <=? major h) = false) as Hle by (apply Z.leb_gt; lia).
  rewrite Hlt. cbn. destruct (decode h bs); cbn; by rewrite ?Hle, ?Hlt.
Qed.

Lemma python2_str_as_unicode_witness :
  represent cpython2 (PBytes "hi")
  = match decode cpython2 "hi" with
    | Some t => represent cpython2 (PText t)
    | None => repr cpython2 (PType (Builtin "str"))
    end.
Proof.
  refine (python2_str_as_unicode cpython2 "hi" _). cbn. lia.
Defined.

(** ** [md5] *)

Lemma string_app_nil_r (a : string) : a +:+ EmptyString = a.
Proof.
  induction a as [|x a IH]; [done|].
  change (String x (a +:+ EmptyString) = String x a). by rewrite IH.
Qed.

(** The loop feeds the object the encoded arguments, one after the other. *)
Lemma md5_update_mapM encode m args :
  md5_update encode m args
  = (λ parts, m +:+ foldr String.append EmptyString parts) <$> mapM encode args.
Proof.
  revert m. induction args as [|arg args IH]; intros m; cbn.
  - by rewrite string_app_nil_r.
  - destruct (encode arg) as [part|]; cbn; [|done]. rewrite IH.
    destruct (mapM encode args) as [parts|]; cbn; [|done].
    by rewrite string_app_assoc.
Qed.

(** X12: the digest depends on the arguments through the concatenation of
    their encodings only: two lists of arguments whose encodings concatenate
    to the same bytes have the same digest, however the bytes are split
    into arguments. *)
Theorem md5_split_irrelevant encode hexdigest args args' parts parts' :
  mapM encode args = Some parts →
  mapM encode args' = Some parts' →
  foldr String.append EmptyString parts = foldr String.append EmptyString parts' →
  md5 encode hexdigest args = md5 encode hexdigest args'.
Proof.
  intros Hparts Hparts' Heq. unfold md5.
  rewrite !md5_update_mapM, Hparts, Hparts'. cbn. by rewrite Heq.
Qed.

Lemma md5_split_irrelevant_witness :
  md5 encode3 (λ bs, bs) [PText "ab"; PText "c"]
  = md5 encode3 (λ bs, bs) [PText "a"; PText "bc"].
Proof.
  refine (md5_split_irrelevant encode3 (λ bs, bs)
    [PText "ab"; PText "c"] [PText "a"; PText "bc"] ["ab"; "c"] ["a"; "bc"] _ _ _);
    reflexivity.
Defined.

